(** * DensityChart: the liquidity-density chart of the add-liquidity form

    A shallow embedding of [src/components/LiquidityDepth/DensityChart.tsx]:
    the hook [useDensityChartData] (three state cells and two effects), the
    component [DensityChart] (its rendered tree as a value) and the brush
    handler [onBrushDomainChangeEnd] (the callbacks it makes, as a trace).

    JavaScript numbers are IEEE binary64 values, here Rocq's primitive
    [float]; JSBI big integers are [Z]; strings are [string]. *)

From Stdlib Require Import ZArith List String Ascii Bool Floats Lia.
From Stdlib Require Import DecimalString.
Import ListNotations.

Set Implicit Arguments.

(** ** The host language *)

Module JS.

Definition number := float.

(** [a > b] on numbers: false as soon as one side is NaN. *)
Definition gt (a b : number) : bool := PrimFloat.ltb b a.

(** ToBoolean on a number: [0], [-0] and [NaN] are falsy. *)
Definition truthy (x : number) : bool :=
  negb (PrimFloat.eqb x 0%float || PrimFloat.is_nan x).

(** ToBoolean on a string: only the empty string is falsy. *)
Definition truthy_string (s : string) : bool :=
  match s with EmptyString => false | String _ _ => true end.

(** ToBoolean on an integer-valued number such as [array.length] or a fee
    tier. *)
Definition truthy_int (n : Z) : bool := negb (Z.eqb n 0).

(** [JSBI.prototype.toString()]: the decimal digits, with a leading [-]. *)
Definition BigInt_toString (n : Z) : string :=
  NilZero.string_of_int (Z.to_int n).

(** [JSBI.greaterThan]. *)
Definition BigInt_greaterThan (a b : Z) : bool := Z.gtb a b.

(** An optional value used as a condition: [undefined] is falsy. *)
Definition defined {A : Type} (o : option A) : bool :=
  match o with Some _ => true | None => false end.

End JS.

Import JS.

(** ** What the file imports

    The engine built-ins [parseFloat] and [Number.prototype.toFixed], the
    constant [PRICE_FIXED_DIGITS] of [hooks/usePoolTickData], and the part of
    the SDK the component calls: currencies with their wrapped token, the
    address order [sortsBefore], and prices with [invert] and
    [toSignificant].  None of them is defined in this file of the
    repository; every definition below takes them as they come, and every
    property below holds whatever they compute.  They are taken to return:
    [toFixed] is called with a digit count the engine accepts, and
    [sortsBefore] on two tokens it can order. *)

Class Host : Type := {
  parseFloat : string -> number;
  toFixed : number -> nat -> string;
  PRICE_FIXED_DIGITS : nat;
  Currency : Type;
  Token : Type;
  wrapped : Currency -> Token;
  sortsBefore : Token -> Token -> bool;
  Price : Type;
  invert : Price -> Price;
  toSignificant : Price -> nat -> string
}.

(** ** Data *)

(** Modelled from the spec: the "externally supplied tick records".  The
    type [TickProcessed] is declared in [constants/ticks], outside this
    file; the fields are the four [formatData] reads, typed by how it reads
    them: [tickIdx] is compared with [activeTick] (tick indices are
    integers), [liquidityActive] goes through [JSBI.greaterThan] and
    [toString], the two prices go through [parseFloat]. *)
Record TickProcessed : Type := {
  tickIdx : Z;
  liquidityActive : Z;
  price0 : string;
  price1 : string
}.

(** [interface ChartEntry]. *)
Record ChartEntry : Type := {
  index : nat;
  isCurrent : bool;
  activeLiquidity : number;
  entry_price0 : number;
  entry_price1 : number
}.

(** [Partial<ChartEntry>]: every field may be missing. *)
Record PartialChartEntry : Type := {
  p_index : option nat;
  p_isCurrent : option bool;
  p_activeLiquidity : option number;
  p_price0 : option number;
  p_price1 : option number
}.

Definition partial (e : ChartEntry) : PartialChartEntry :=
  {| p_index := Some (index e);
     p_isCurrent := Some (isCurrent e);
     p_activeLiquidity := Some (activeLiquidity e);
     p_price0 := Some (entry_price0 e);
     p_price1 := Some (entry_price1 e) |}.

Definition sample (p0 liq : number) : PartialChartEntry :=
  {| p_index := None; p_isCurrent := None;
     p_activeLiquidity := Some liq; p_price0 := Some p0; p_price1 := None |}.

Definition sampleData : list PartialChartEntry :=
  [ sample 0 1; sample 1 2; sample 2 3; sample 3 6;
    sample 4 5; sample 5 3; sample 6 2 ]%float.

(** What [usePoolTickData(currencyA, currencyB, feeAmount)] returns, as the
    hook destructures it: three flags, [activeTick] and [tickData], the last
    two possibly undefined. *)
Record PoolTickData : Type := {
  loading : bool;
  syncing : bool;
  error : bool;
  activeTick : option Z;
  tickData : option (list TickProcessed)
}.

(** The three [useState] cells of [useDensityChartData]. *)
Record ChartState : Type := {
  formattedData : option (list ChartEntry);
  priceAtActiveTick : option number;
  maxLiquidity : number
}.

Definition initialState : ChartState :=
  {| formattedData := None; priceAtActiveTick := None; maxLiquidity := 0%float |}.

(** A call of one of the three state setters. *)
Inductive Update : Type :=
| SetFormattedData (d : list ChartEntry)
| SetPriceAtActiveTick (p : number)
| SetMaxLiquidity (m : number).

Definition apply_update (s : ChartState) (u : Update) : ChartState :=
  match u with
  | SetFormattedData d =>
      {| formattedData := Some d;
         priceAtActiveTick := priceAtActiveTick s;
         maxLiquidity := maxLiquidity s |}
  | SetPriceAtActiveTick p =>
      {| formattedData := formattedData s;
         priceAtActiveTick := Some p;
         maxLiquidity := maxLiquidity s |}
  | SetMaxLiquidity m =>
      {| formattedData := formattedData s;
         priceAtActiveTick := priceAtActiveTick s;
         maxLiquidity := m |}
  end.

(** The setters are called with values, so the queued calls apply in order
    and the last write to a cell wins. *)
Definition apply_updates (s : ChartState) (us : list Update) : ChartState :=
  fold_left apply_update us s.

(** [Boolean(formattedData?.length)]. *)
Definition has_length {A : Type} (o : option (list A)) : bool :=
  match o with
  | Some l => truthy_int (Z.of_nat (List.length l))
  | None => false
  end.

Section Hook.

Context {host : Host}.

(** The props of the component; the two callbacks are the constructors of
    [Call] below. *)
Record Props : Type := {
  price : option string;
  currencyA : option Currency;
  currencyB : option Currency;
  feeAmount : option Z;
  priceLower : option Price;
  priceUpper : option Price
}.

(** *** First effect: clear data when inputs are cleared *)

Definition inputs_cleared (p : Props) : bool :=
  negb (defined (currencyA p))
  || negb (defined (currencyB p))
  || negb (match feeAmount p with Some f => truthy_int f | None => false end).

Definition clearEffect (p : Props) (s : ChartState) : list Update :=
  if inputs_cleared p && has_length (formattedData s)
  then [SetFormattedData []]
  else [].

(** *** Second effect: [formatData] *)

(** The locals of the [for] loop: [newData], the local [maxLiquidity] that
    shadows the state cell, and the setter calls made so far. *)
Record LoopState : Type := {
  newData : list ChartEntry;
  maxLiq : Z;
  calls : list Update
}.

Definition loop_body (active_tick : option Z) (i : nat) (t : TickProcessed)
    (st : LoopState) : LoopState :=
  let active :=
    match active_tick with
    | Some a => Z.eqb (tickIdx t) a
    | None => false
    end in
  let maxLiquidity :=
    if BigInt_greaterThan (liquidityActive t) (maxLiq st)
    then liquidityActive t
    else maxLiq st in
  let chartEntry :=
    {| index := i;
       isCurrent := active;
       activeLiquidity := parseFloat (BigInt_toString (liquidityActive t));
       entry_price0 := parseFloat (price0 t);
       entry_price1 := parseFloat (price1 t) |} in
  {| newData := newData st ++ [chartEntry];
     maxLiq := maxLiquidity;
     calls := if active
              then calls st ++ [SetPriceAtActiveTick (entry_price0 chartEntry)]
              else calls st |}.

(** [for (let i = 0; i < tickData.length; i++)], entered at index [i] with
    the ticks from [i] on still to visit. *)
Fixpoint loop (active_tick : option Z) (i : nat) (rest : list TickProcessed)
    (st : LoopState) : LoopState :=
  match rest with
  | [] => st
  | t :: rest' => loop active_tick (S i) rest' (loop_body active_tick i t st)
  end.

Definition formatData (d : PoolTickData) : list Update :=
  match tickData d with
  | None => []
  | Some ticks =>
      if negb (truthy_int (Z.of_nat (List.length ticks))) then []
      else
        let st := loop (activeTick d) 0 ticks
                    {| newData := []; maxLiq := 0; calls := [] |} in
        calls st
        ++ [SetMaxLiquidity (parseFloat (BigInt_toString (maxLiq st)))]
        ++ [SetFormattedData (newData st)]
  end.

Definition formatEffect (d : PoolTickData) : list Update :=
  if negb (loading d) then formatData d else [].

(** *** The hook *)

(** What [useDensityChartData] returns to the component. *)
Record ChartData : Type := {
  r_loading : bool;
  r_syncing : bool;
  r_error : bool;
  r_priceAtActiveTick : option number;
  r_maxLiquidity : number;
  r_formattedData : option (list ChartEntry)
}.

Definition useDensityChartData (d : PoolTickData) (s : ChartState) : ChartData :=
  {| r_loading := loading d;
     r_syncing := syncing d;
     r_error := error d;
     r_priceAtActiveTick := priceAtActiveTick s;
     r_maxLiquidity := maxLiquidity s;
     r_formattedData := formattedData s |}.

(** Which dependency lists React found changed since the last commit (on
    mount, both). *)
Record Changed : Type := {
  clear_deps : bool;    (* [currencyA, currencyB, feeAmount, formattedData] *)
  format_deps : bool    (* [loading, activeTick, tickData] *)
}.

(** The effects of one commit.  Both closures were created by the same
    render, so both read the state [s] of that render; their setter calls
    are queued in the order the effects are declared. *)
Definition effects (c : Changed) (p : Props) (d : PoolTickData) (s : ChartState)
  : list Update :=
  (if clear_deps c then clearEffect p s else [])
  ++ (if format_deps c then formatEffect d else []).

Definition commit (c : Changed) (p : Props) (d : PoolTickData) (s : ChartState)
  : ChartState :=
  apply_updates s (effects c p d s).

End Hook.

(** ** The component *)

(** An end of a brush domain: Victory's [DomainTuple] holds numbers or
    dates. *)
Inductive DomainValue : Type :=
| DNumber (n : number)
| DDate (timeValue : number).

(** [Number(v)]: a number is itself, a date is its time value. *)
Definition Number (v : DomainValue) : number :=
  match v with
  | DNumber n => n
  | DDate t => t
  end.

(** The [x] entry of the domain handed to [onBrushDomainChangeEnd]. *)
Record Domain : Type := {
  x0 : DomainValue;
  x1 : DomainValue
}.

(** A call of one of the two callbacks the form passes in. *)
Inductive Call : Type :=
| onLeftRangeInput (typedValue : string)
| onRightRangeInput (typedValue : string).

(** The rendered tree, reduced to the elements and props that carry data;
    theme colours, sizes and the animation are constants of the source. *)
Record Brush : Type := {
  brush_allowDrag : bool
}.

Record VictoryBrushContainer : Type := {
  allowDraw : bool;
  allowDrag : bool;
  allowResize : bool;
  brushDomain : option (number * number);
  brushComponent : Brush
}.

Record Point : Type := {
  pt_x : number;
  pt_y : number
}.

Record VictoryChart : Type := {
  containerComponent : VictoryBrushContainer;
  bar_data : list PartialChartEntry;       (* [VictoryBar data] *)
  line_data : option (list Point)          (* [VictoryLine data], when rendered *)
}.

Inductive Content : Type :=
| NoData                                   (* [XCircle] and "No data" *)
| Chart (c : VictoryChart).

Inductive Element : Type :=
| Spinner                                  (* [Wrapper] around one [Loader] *)
| Panel (syncingIndicator : bool) (content : Content).

Section Component.

Context {host : Host}.

Definition onBrushDomainChangeEnd (domain : Domain) : list Call :=
  let leftRangeValue := Number (x0 domain) in
  let rightRangeValue := Number (x1 domain) in
  (if gt leftRangeValue 0%float
   then [onLeftRangeInput (toFixed leftRangeValue PRICE_FIXED_DIGITS)]
   else [])
  ++
  (if gt rightRangeValue 0%float
   then [onRightRangeInput (toFixed rightRangeValue PRICE_FIXED_DIGITS)]
   else []).

Definition isSorted (p : Props) : bool :=
  match currencyA p, currencyB p with
  | Some a, Some b => sortsBefore (wrapped a) (wrapped b)
  | _, _ => false
  end.

Definition leftPrice (p : Props) : option Price :=
  if isSorted p then priceLower p else option_map invert (priceUpper p).

Definition rightPrice (p : Props) : option Price :=
  if isSorted p then priceUpper p else option_map invert (priceLower p).

Definition brush_domain (p : Props) : option (number * number) :=
  match leftPrice p, rightPrice p with
  | Some l, Some r =>
      Some (parseFloat (toSignificant l 5), parseFloat (toSignificant r 5))
  | _, _ => None
  end.

(** [maxLiquidity && priceAtActiveTick ? [...] : []]. *)
Definition marker (r : ChartData) : list Point :=
  match r_priceAtActiveTick r with
  | Some priceAtActiveTick =>
      if truthy (r_maxLiquidity r) && truthy priceAtActiveTick
      then [ {| pt_x := priceAtActiveTick; pt_y := 0%float |};
             {| pt_x := priceAtActiveTick; pt_y := r_maxLiquidity r |} ]
      else []
  | None => []
  end.

Definition chart (p : Props) (r : ChartData) : VictoryChart :=
  {| containerComponent :=
       {| allowDraw := false;
          allowDrag := has_length (r_formattedData r);
          allowResize := has_length (r_formattedData r);
          brushDomain := brush_domain p;
          brushComponent :=
            {| brush_allowDrag := has_length (r_formattedData r) |} |};
     bar_data :=
       match r_formattedData r with
       | Some formattedData => map partial formattedData
       | None => sampleData
       end;
     line_data :=
       match price p with
       | Some s => if truthy_string s then Some (marker r) else None
       | None => None
       end |}.

Definition DensityChart (p : Props) (d : PoolTickData) (s : ChartState) : Element :=
  let r := useDensityChartData d s in
  if r_loading r then Spinner
  else
    Panel (r_syncing r)
      (match r_formattedData r with
       | Some [] => NoData
       | _ => Chart (chart p r)
       end).

End Component.

(** ** A reference host

    The built-ins as ECMA-262 defines them, for strings within ASCII, so
    that the definitions above run on concrete inputs: [parseFloat] reads the
    longest StrDecimalLiteral prefix and rounds its exact value once;
    [toFixed] prints the exact binary value. *)

Module Ecma.

Local Open Scope string_scope.
Local Open Scope Z_scope.

(** *** Decimal text *)

Definition is_digit (c : ascii) : bool :=
  let n := Z.of_nat (nat_of_ascii c) in (48 <=? n) && (n <=? 57).

Definition digit_value (c : ascii) : Z := Z.of_nat (nat_of_ascii c) - 48.

(** WhiteSpace and LineTerminator within ASCII. *)
Definition is_space (c : ascii) : bool :=
  let n := Z.of_nat (nat_of_ascii c) in
  ((9 <=? n) && (n <=? 13)) || (n =? 32).

Fixpoint trim_start (s : string) : string :=
  match s with
  | String c s' => if is_space c then trim_start s' else s
  | EmptyString => s
  end.

(** The longest run of digits at the head of [s], read onto [acc]: its
    value, how many digits it has, and what follows. *)
Fixpoint read_digits (s : string) (acc : Z) (count : Z) : Z * Z * string :=
  match s with
  | String c s' =>
      if is_digit c then read_digits s' (10 * acc + digit_value c) (count + 1)
      else (acc, count, s)
  | EmptyString => (acc, count, s)
  end.

Definition digits_of (n : Z) : string := NilZero.string_of_int (Z.to_int n).

(** The number of decimal digits of [n > 0]. *)
Definition decimal_length (n : Z) : Z := Z.of_nat (String.length (digits_of n)).

(** *** Rounding an exact value to binary64 *)

Definition prec : Z := 53.
Definition emax : Z := 1024.

(** The binary64 value nearest to [n / d] (ties to even), for [0 <= n] and
    [0 < d]: a quotient of at least 63 bits with a sticky bit below it,
    rounded once. *)
Definition of_ratio (negative : bool) (n d : Z) : number :=
  if n =? 0 then (if negative then (-0)%float else 0%float)
  else
    let s := 64 + Z.log2 d - Z.log2 n in
    let '(q, r) :=
      if 0 <=? s then Z.div_eucl (n * 2 ^ s) d
      else Z.div_eucl n (d * 2 ^ (- s)) in
    let m := 2 * q + (if r =? 0 then 0 else 1) in
    SF2Prim (binary_normalize prec emax (if negative then - m else m) (- s - 1) false).

(** [m * 10^e] rounded to binary64.  Values beyond the range are settled
    by their magnitude, so no power larger than [10^400] is computed. *)
Definition of_decimal (negative : bool) (m e : Z) : number :=
  if m =? 0 then (if negative then (-0)%float else 0%float)
  else
    let magnitude := decimal_length m + e in
    if 310 <? magnitude then (if negative then neg_infinity else infinity)
    else if magnitude <? -330 then (if negative then (-0)%float else 0%float)
    else if 0 <=? e then of_ratio negative (m * 10 ^ e) 1
    else of_ratio negative m (10 ^ (- e)).

(** *** parseFloat *)

Definition starts_with (p s : string) : bool :=
  match String.length p <=? String.length s with
  | true => String.eqb p (substring 0 (String.length p) s)
  | false => false
  end%nat.

(** ExponentPart: [e] or [E], an optional sign and at least one digit;
    otherwise the literal ends before it. *)
Definition read_exponent (s : string) : Z :=
  match s with
  | String c s' =>
      if (Ascii.eqb c "e" || Ascii.eqb c "E")%char then
        let '(negative, s'') :=
          match s' with
          | String "+" t => (false, t)
          | String "-" t => (true, t)
          | _ => (false, s')
          end in
        let '(v, count, _) := read_digits s'' 0 0 in
        if count =? 0 then 0 else if negative then - v else v
      else 0
  | EmptyString => 0
  end.

(** StrUnsignedDecimalLiteral, longest prefix. *)
Definition read_unsigned (negative : bool) (s : string) : number :=
  if starts_with "Infinity" s then (if negative then neg_infinity else infinity)
  else
    let '(int_part, int_count, rest) := read_digits s 0 0 in
    match rest with
    | String "." rest' =>
        let '(m, frac_count, rest'') := read_digits rest' int_part 0 in
        if (int_count =? 0) && (frac_count =? 0) then nan
        else of_decimal negative m (read_exponent rest'' - frac_count)
    | _ =>
        if int_count =? 0 then nan
        else of_decimal negative int_part (read_exponent rest)
    end.

Definition parseFloat (s : string) : number :=
  match trim_start s with
  | String "+" s' => read_unsigned false s'
  | String "-" s' => read_unsigned true s'
  | s' => read_unsigned false s'
  end.


(** *** Number::toString and toFixed *)

Fixpoint zeros (n : nat) : string :=
  match n with
  | O => EmptyString
  | S n' => String "0" (zeros n')
  end.

(** The exact value of a finite positive number, as a fraction. *)
Definition fraction_of (mant : positive) (e : Z) : Z * Z :=
  if 0 <=? e then (Z.pos mant * 2 ^ e, 1) else (Z.pos mant, 2 ^ (- e)).

(** The [n] with [10^(n-1) <= num/den < 10^n]. *)
Definition decimal_exponent (num den : Z) : Z :=
  if den <=? num then decimal_length (num / den)
  else 1 - decimal_length ((den + num - 1) / num - 1).

(** [num/den] scaled by [10^(-p)]. *)
Definition scale (num den p : Z) : Z * Z :=
  if 0 <=? p then (num, den * 10 ^ p) else (num * 10 ^ (- p), den).

(** Does [s * 10^p] read back as [x]? *)
Definition reads_back (x : number) (s p : Z) : bool :=
  PrimFloat.eqb x (of_decimal false s p).

(** The shortest digits: the least [k] for which some [s] of [k] digits has
    [s * 10^(n-k)] read back as [x]; of two such [s], the nearer, then the
    even one. *)
Fixpoint shortest (x : number) (num den n : Z) (k : Z) (fuel : nat) : Z * Z :=
  match fuel with
  | O => (0, n)
  | S fuel' =>
      let p := n - k in
      let '(a, b) := scale num den p in
      let lo := a / b in
      let hi := lo + 1 in
      let lo_ok := reads_back x lo p in
      let hi_ok := reads_back x hi p in
      let twice := 2 * (a - lo * b) in   (* against [b]: which is nearer *)
      let pick (s : Z) := if s =? 10 ^ k then (10 ^ (k - 1), n + 1) else (s, n) in
      if lo_ok && hi_ok then
        if twice <? b then pick lo
        else if b <? twice then pick hi
        else if Z.even lo then pick lo else pick hi
      else if lo_ok then pick lo
      else if hi_ok then pick hi
      else shortest x num den n (k + 1) fuel'
  end.

Definition format_digits (digits : string) (n : Z) : string :=
  let k := Z.of_nat (String.length digits) in
  if (k <=? n) && (n <=? 21) then digits ++ zeros (Z.to_nat (n - k))
  else if (0 <? n) && (n <=? 21) then
    substring 0 (Z.to_nat n) digits ++ "."
    ++ substring (Z.to_nat n) (Z.to_nat (k - n)) digits
  else if (-6 <? n) && (n <=? 0) then "0." ++ zeros (Z.to_nat (- n)) ++ digits
  else
    let e := n - 1 in
    let sign := if e <? 0 then "-" else "+" in
    let mantissa :=
      if k =? 1 then digits
      else substring 0 1 digits ++ "." ++ substring 1 (Z.to_nat (k - 1)) digits in
    mantissa ++ "e" ++ sign ++ digits_of (Z.abs e).

(** [Number::toString(x)] in radix 10. *)
Definition Number_toString (x : number) : string :=
  match Prim2SF x with
  | S754_nan => "NaN"
  | S754_zero _ => "0"
  | S754_infinity negative => if negative then "-Infinity" else "Infinity"
  | S754_finite negative mant e =>
      let '(num, den) := fraction_of mant e in
      let n := decimal_exponent num den in
      let '(s, n') := shortest (PrimFloat.abs x) num den n 1 17 in
      (if negative then "-" else "") ++ format_digits (digits_of s) n'
  end.

(** [Number.prototype.toFixed(fractionDigits)].  The engine raises a
    RangeError outside [0 .. 100] digits; the digits are computed for
    any count. *)
Definition Number_toFixed (x : number) (fractionDigits : nat) : string :=
  match Prim2SF x with
  | S754_nan => "NaN"
  | S754_infinity negative => if negative then "-Infinity" else "Infinity"
  | S754_zero _ =>
      match fractionDigits with
      | O => "0"
      | _ => "0." ++ zeros fractionDigits
      end
  | S754_finite negative mant e =>
      let sign := if negative then "-" else "" in
      if PrimFloat.leb 1e21%float (PrimFloat.abs x)
      then sign ++ Number_toString (PrimFloat.abs x)
      else
        let f := Z.of_nat fractionDigits in
        let '(num, den) := fraction_of mant e in
        (* the integer nearest to [x * 10^f], the larger of two *)
        let n := (2 * num * 10 ^ f + den) / (2 * den) in
        let m := digits_of n in
        let k := String.length m in
        match fractionDigits with
        | O => sign ++ m
        | _ =>
            let m' := if (k <=? fractionDigits)%nat
                      then zeros (fractionDigits + 1 - k) ++ m else m in
            let k' := String.length m' in
            sign ++ substring 0 (k' - fractionDigits) m' ++ "."
                 ++ substring (k' - fractionDigits) fractionDigits m'
        end
  end.

End Ecma.

(** A small SDK for the examples: a currency is the native one or a token
    at an address, tokens are ordered by address, and a price is a positive
    fraction printed in plain decimal notation, rounded half up. *)
Module Sdk.

Local Open Scope string_scope.
Local Open Scope Z_scope.

Inductive currency : Type :=
| Native
| ERC20 (address : N).

Definition wrapped_native : N := 0xC02aaA39b223FE8D0A0e5C4F27eAD9083C756Cc2%N.

Definition wrapped (c : currency) : N :=
  match c with
  | Native => wrapped_native
  | ERC20 a => a
  end.

Definition sortsBefore (a b : N) : bool := N.ltb a b.

Record price : Type := {
  numerator : positive;
  denominator : positive
}.

Definition invert (p : price) : price :=
  {| numerator := denominator p; denominator := numerator p |}.

Fixpoint strip_zeros (fuel : nat) (s n : Z) : Z * Z :=
  match fuel with
  | O => (s, n)
  | S fuel' =>
      if (0 <? n) && (s mod 10 =? 0) then strip_zeros fuel' (s / 10) (n - 1)
      else (s, n)
  end.

(** [s / 10^places] in plain notation. *)
Definition plain (s places : Z) : string :=
  let digits := Ecma.digits_of s in
  let k := Z.of_nat (String.length digits) in
  if places <=? 0 then digits ++ Ecma.zeros (Z.to_nat (- places))
  else if places <? k then
    substring 0 (Z.to_nat (k - places)) digits ++ "."
    ++ substring (Z.to_nat (k - places)) (Z.to_nat places) digits
  else "0." ++ Ecma.zeros (Z.to_nat (places - k)) ++ digits.

Definition toSignificant (p : price) (significantDigits : nat) : string :=
  let num := Z.pos (numerator p) in
  let den := Z.pos (denominator p) in
  let sd := Z.of_nat significantDigits in
  let n := Ecma.decimal_exponent num den in
  let places := sd - n in
  let '(a, b) := Ecma.scale num den (- places) in
  let s := (2 * a + b) / (2 * b) in
  let '(s', places') := strip_zeros significantDigits s places in
  plain s' places'.

End Sdk.

Definition reference : Host :=
  {| parseFloat := Ecma.parseFloat;
     toFixed := Ecma.Number_toFixed;
     PRICE_FIXED_DIGITS := 8;
     Currency := Sdk.currency;
     Token := N;
     wrapped := Sdk.wrapped;
     sortsBefore := Sdk.sortsBefore;
     Price := Sdk.price;
     invert := Sdk.invert;
     toSignificant := Sdk.toSignificant |}.

(** ** The series and the maximum, stated on the ticks *)

Section Series.

Context {host : Host}.

(** The chart point of the tick [t] met at position [i]. *)
Definition entry_of (active_tick : option Z) (i : nat) (t : TickProcessed)
  : ChartEntry :=
  {| index := i;
     isCurrent := match active_tick with
                  | Some a => Z.eqb (tickIdx t) a
                  | None => false
                  end;
     activeLiquidity := parseFloat (BigInt_toString (liquidityActive t));
     entry_price0 := parseFloat (price0 t);
     entry_price1 := parseFloat (price1 t) |}.

Fixpoint entries (active_tick : option Z) (i : nat) (ticks : list TickProcessed)
  : list ChartEntry :=
  match ticks with
  | [] => []
  | t :: ticks' => entry_of active_tick i t :: entries active_tick (S i) ticks'
  end.

(** The [setPriceAtActiveTick] calls of a pass, one per active tick. *)
Fixpoint price_calls (active_tick : option Z) (ticks : list TickProcessed)
  : list Update :=
  match ticks with
  | [] => []
  | t :: ticks' =>
      if isCurrent (entry_of active_tick 0 t)
      then SetPriceAtActiveTick (parseFloat (price0 t)) :: price_calls active_tick ticks'
      else price_calls active_tick ticks'
  end.

End Series.

(** The greatest [liquidityActive] of a non-empty array. *)
Definition greatest (ticks : list TickProcessed) : option Z :=
  match ticks with
  | [] => None
  | t :: ticks' => Some (fold_left Z.max (map liquidityActive ticks') (liquidityActive t))
  end.

(** What a rendered tree shows. *)
Definition shows_spinner (e : Element) : bool :=
  match e with
  | Spinner => true
  | Panel syncingIndicator _ => syncingIndicator
  end.

Definition shows_syncing_indicator (e : Element) : bool :=
  match e with
  | Spinner => false
  | Panel syncingIndicator _ => syncingIndicator
  end.

Definition shows_no_data (e : Element) : bool :=
  match e with
  | Panel _ NoData => true
  | _ => false
  end.

Definition shown_chart (e : Element) : option VictoryChart :=
  match e with
  | Panel _ (Chart c) => Some c
  | _ => None
  end.

(** Which callback a call went to. *)
Definition is_left (c : Call) : bool :=
  match c with onLeftRangeInput _ => true | onRightRangeInput _ => false end.

Definition is_right (c : Call) : bool := negb (is_left c).

(** The same hook result with another [error] flag. *)
Definition with_error (e : bool) (d : PoolTickData) : PoolTickData :=
  {| loading := loading d;
     syncing := syncing d;
     error := e;
     activeTick := activeTick d;
     tickData := tickData d |}.

(** ** Sample inputs *)

Module Sample.

Definition ticks : list TickProcessed :=
  [ {| tickIdx := -60; liquidityActive := 1000;
       price0 := "0.99402"; price1 := "1.00602" |};
    {| tickIdx := 0; liquidityActive := 2500;
       price0 := "1.00000"; price1 := "1.00000" |};
    {| tickIdx := 60; liquidityActive := 1800;
       price0 := "1.00602"; price1 := "0.99402" |} ].

(** The pool data once loaded, the middle tick active. *)
Definition loaded : PoolTickData :=
  {| loading := false; syncing := false; error := false;
     activeTick := Some 0%Z; tickData := Some ticks |}.

(** The same data while a fetch is in flight. *)
Definition fetching : PoolTickData :=
  {| loading := true; syncing := false; error := false;
     activeTick := Some 0%Z; tickData := Some ticks |}.

(** No pool: nothing to show. *)
Definition absent : PoolTickData :=
  {| loading := false; syncing := false; error := false;
     activeTick := None; tickData := None |}.

(** One tick whose active liquidity is below zero. *)
Definition drained : PoolTickData :=
  {| loading := false; syncing := false; error := false;
     activeTick := Some 0%Z;
     tickData := Some [ {| tickIdx := 0; liquidityActive := -5;
                           price0 := "1.00000"; price1 := "1.00000" |} ] |}.

(** A form with both currencies and the fee tier chosen, no range yet. *)
Definition form : Props (host := reference) :=
  @Build_Props reference
    (Some "1.0000"%string)
    (Some Sdk.Native)
    (Some (Sdk.ERC20 0x6B175474E89094C44Da98b954EedeAC495271d0F%N))
    (Some 3000%Z)
    None None.

(** The same form after the second currency was cleared. *)
Definition cleared : Props (host := reference) :=
  @Build_Props reference
    None (Some Sdk.Native) None (Some 3000%Z) None None.

(** The state cells with an empty series. *)
Definition emptied : ChartState :=
  {| formattedData := Some []; priceAtActiveTick := None; maxLiquidity := 0%float |}.

(** The state cells after a pass over [loaded]. *)
Definition formatted : ChartState :=
  apply_updates initialState (formatData (host := reference) loaded).

(** The brush released with its left handle at the origin. *)
Definition at_origin : Domain :=
  {| x0 := DNumber 0%float; x1 := DNumber 1%float |}.

Definition inside : Domain :=
  {| x0 := DNumber 0.5%float; x1 := DNumber 2.25%float |}.

End Sample.

(** ** The label of the marker line, the active ticks, the states a mount reaches *)

(** [a !== b] on numbers. *)
Definition strict_ne (a b : number) : bool := negb (PrimFloat.eqb a b).

(** [labels={({ datum }) => (datum.y !== 0 ? price : '')}] of [VictoryLine],
    [price] being the prop the line is rendered under. *)
Definition labels (price : string) (datum : Point) : string :=
  if strict_ne (pt_y datum) 0%float then price else EmptyString.

(** [t.tickIdx === activeTick], the [active] local of the loop. *)
Definition is_active (active_tick : option Z) (t : TickProcessed) : bool :=
  match active_tick with
  | Some a => Z.eqb (tickIdx t) a
  | None => false
  end.

(** Every entry of a series carries its own position. *)
Definition well_indexed (series : list ChartEntry) : Prop :=
  forall (i : nat) (e : ChartEntry), nth_error series i = Some e -> index e = i.

Section Reach.

Context {host : Host}.

(** The cells a mounted hook can hold: those of the mount, and those any
    commit leaves, whatever the props and the pool data of its render. *)
Inductive reachable : ChartState -> Prop :=
| reach_mount : reachable initialState
| reach_commit (c : Changed) (p : Props) (d : PoolTickData) (s : ChartState) :
    reachable s -> reachable (commit c p d s).

End Reach.

Module Cases.

(** The sample pool with an active tick that is none of the ticks supplied. *)
Definition unmatched : PoolTickData :=
  {| loading := false; syncing := true; error := false;
     activeTick := Some 30%Z; tickData := Some Sample.ticks |}.

(** The sample pool without an active tick. *)
Definition inactive : PoolTickData :=
  {| loading := false; syncing := false; error := false;
     activeTick := None; tickData := Some Sample.ticks |}.

(** A pool that answered with an empty array. *)
Definition no_ticks : PoolTickData :=
  {| loading := false; syncing := false; error := false;
     activeTick := Some 0%Z; tickData := Some [] |}.

(** Every dependency changed, as on mount. *)
Definition all_changed : Changed :=
  {| clear_deps := true; format_deps := true |}.

(** A form with a fee tier of 0. *)
Definition zero_fee : Props (host := reference) :=
  @Build_Props reference
    None (Some Sdk.Native)
    (Some (Sdk.ERC20 0x6B175474E89094C44Da98b954EedeAC495271d0F%N))
    (Some 0%Z) None None.

(** A form with a range chosen: lower 1/4, upper 2. *)
Definition ranged : Props (host := reference) :=
  @Build_Props reference
    (Some "1.0000"%string) (Some Sdk.Native)
    (Some (Sdk.ERC20 0x6B175474E89094C44Da98b954EedeAC495271d0F%N))
    (Some 3000%Z)
    (Some {| Sdk.numerator := 1; Sdk.denominator := 4 |})
    (Some {| Sdk.numerator := 2; Sdk.denominator := 1 |}).

End Cases.

(** * Properties *)

Section Loop.

Context {host : Host}.

Lemma apply_updates_app (s : ChartState) (us vs : list Update) :
  apply_updates s (us ++ vs) = apply_updates (apply_updates s us) vs.
Proof. unfold apply_updates. apply fold_left_app. Qed.

Lemma loop_body_entry (a : option Z) (i : nat) (t : TickProcessed) (st : LoopState) :
  newData (loop_body a i t st) = newData st ++ [entry_of a i t].
Proof. reflexivity. Qed.

Lemma loop_newData (a : option Z) (rest : list TickProcessed) :
  forall (i : nat) (st : LoopState),
    newData (loop a i rest st) = newData st ++ entries a i rest.
Proof.
  induction rest as [|t rest IH]; intros i st; simpl.
  - now rewrite app_nil_r.
  - rewrite IH, loop_body_entry, <- app_assoc. reflexivity.
Qed.

Lemma loop_maxLiq (a : option Z) (rest : list TickProcessed) :
  forall (i : nat) (st : LoopState),
    maxLiq (loop a i rest st)
    = fold_left Z.max (map liquidityActive rest) (maxLiq st).
Proof.
  induction rest as [|t rest IH]; intros i st; simpl; [reflexivity|].
  rewrite IH. f_equal. cbn [loop_body maxLiq].
  unfold BigInt_greaterThan. rewrite Z.gtb_ltb.
  destruct (Z.ltb_spec (maxLiq st) (liquidityActive t)); lia.
Qed.

Lemma loop_calls (a : option Z) (rest : list TickProcessed) :
  forall (i : nat) (st : LoopState),
    calls (loop a i rest st) = calls st ++ price_calls a rest.
Proof.
  induction rest as [|t rest IH]; intros i st; simpl.
  - now rewrite app_nil_r.
  - rewrite IH. cbn [loop_body calls entry_price0].
    destruct (match a with Some a0 => (tickIdx t =? a0)%Z | None => false end).
    + now rewrite <- app_assoc.
    + reflexivity.
Qed.

(** The calls of a pass over a non-empty array, in closed form. *)
Lemma formatData_calls (d : PoolTickData) (ticks : list TickProcessed) :
  tickData d = Some ticks -> ticks <> [] ->
  formatData d
  = price_calls (activeTick d) ticks
    ++ [SetMaxLiquidity
          (parseFloat (BigInt_toString
             (fold_left Z.max (map liquidityActive ticks) 0%Z)))]
    ++ [SetFormattedData (entries (activeTick d) 0 ticks)].
Proof.
  intros Hd Hne. unfold formatData. rewrite Hd.
  destruct ticks as [|t ticks]; [congruence|].
  cbn [List.length truthy_int negb]. 
  replace (Z.of_nat (S (List.length ticks)) =? 0)%Z with false
    by (symmetry; apply Z.eqb_neq; lia).
  cbn [negb].
  rewrite loop_calls, loop_maxLiq, loop_newData. reflexivity.
Qed.

Lemma price_calls_keep (a : option Z) (ticks : list TickProcessed) (s : ChartState) :
  formattedData (apply_updates s (price_calls a ticks)) = formattedData s
  /\ maxLiquidity (apply_updates s (price_calls a ticks)) = maxLiquidity s.
Proof.
  revert s. induction ticks as [|t ticks IH]; intros s; simpl; [split; reflexivity|].
  destruct (match a with Some a0 => (tickIdx t =? a0)%Z | None => false end).
  - cbn [apply_updates fold_left]. fold (apply_updates (apply_update s (SetPriceAtActiveTick (parseFloat (price0 t)))) (price_calls a ticks)).
    destruct (IH (apply_update s (SetPriceAtActiveTick (parseFloat (price0 t))))) as [E1 E2].
    rewrite E1, E2. split; reflexivity.
  - apply IH.
Qed.

(** The state a pass over a non-empty array leaves. *)
Lemma format_pass (d : PoolTickData) (ticks : list TickProcessed) (s : ChartState) :
  tickData d = Some ticks -> ticks <> [] ->
  let s' := apply_updates s (formatData d) in
  formattedData s' = Some (entries (activeTick d) 0 ticks)
  /\ maxLiquidity s'
     = parseFloat (BigInt_toString (fold_left Z.max (map liquidityActive ticks) 0%Z))
  /\ priceAtActiveTick s'
     = priceAtActiveTick (apply_updates s (price_calls (activeTick d) ticks)).
Proof.
  intros Hd Hne s'. subst s'. rewrite (formatData_calls d Hd Hne).
  rewrite !apply_updates_app. cbn. repeat split; reflexivity.
Qed.

Lemma entries_length (a : option Z) (ticks : list TickProcessed) :
  forall i, List.length (entries a i ticks) = List.length ticks.
Proof. induction ticks as [|t ticks IH]; intros i; simpl; [|rewrite IH]; reflexivity. Qed.

Lemma entries_nth (a : option Z) (ticks : list TickProcessed) :
  forall (i k : nat) (t : TickProcessed),
    nth_error ticks k = Some t ->
    nth_error (entries a i ticks) k = Some (entry_of a (i + k) t).
Proof.
  induction ticks as [|u ticks IH]; intros i k t Hk.
  - destruct k; discriminate.
  - destruct k as [|k]; simpl in *.
    + injection Hk as ->. now rewrite Nat.add_0_r.
    + rewrite (IH (S i) k t Hk). f_equal. f_equal. lia.
Qed.

Lemma fold_max_bounds (l : list Z) :
  forall init : Z,
    let m := fold_left Z.max l init in
    (init <= m)%Z
    /\ (forall x, In x l -> (x <= m)%Z)
    /\ (m = init \/ In m l).
Proof.
  induction l as [|x l IH]; intros init; simpl.
  - repeat split; [lia | tauto | now left].
  - destruct (IH (Z.max init x)) as (H1 & H2 & H3). repeat split.
    + lia.
    + intros y [<-|Hy]; [lia | now apply H2].
    + destruct H3 as [H3|H3]; [|now right; right].
      destruct (Z.max_spec init x) as [[_ E]|[_ E]]; rewrite E in H3 |- *.
      * right; left. now symmetry.
      * now left.
Qed.

End Loop.

Section Formatting.

Context {host : Host}.

(** C2: a formatting pass over a non-empty [tickData] array sets
    [formattedData] to a series with one entry per tick, in the order of
    the ticks; entry [i] has [index = i], [isCurrent] true exactly when the
    tick's [tickIdx] is [activeTick], [activeLiquidity] the float parse of
    the printed [liquidityActive], and [price0], [price1] the float parses
    of the tick's price strings. *)
Theorem formatData_series (d : PoolTickData) (ticks : list TickProcessed)
    (s : ChartState) :
  tickData d = Some ticks -> ticks <> [] ->
  exists series : list ChartEntry,
    formattedData (apply_updates s (formatData d)) = Some series
    /\ List.length series = List.length ticks
    /\ forall (i : nat) (t : TickProcessed),
         nth_error ticks i = Some t ->
         exists e : ChartEntry,
           nth_error series i = Some e
           /\ index e = i
           /\ (isCurrent e = true <-> activeTick d = Some (tickIdx t))
           /\ activeLiquidity e = parseFloat (BigInt_toString (liquidityActive t))
           /\ entry_price0 e = parseFloat (price0 t)
           /\ entry_price1 e = parseFloat (price1 t).
Proof.
  intros Hd Hne.
  destruct (format_pass d s Hd Hne) as (Hseries & _ & _).
  exists (entries (activeTick d) 0 ticks). split; [exact Hseries|].
  split; [apply entries_length|].
  intros i t Hi. exists (entry_of (activeTick d) i t).
  split; [exact (entries_nth (activeTick d) ticks 0 i Hi)|].
  repeat split; try reflexivity; cbn [isCurrent entry_of].
  - destruct (activeTick d) as [a|]; [|discriminate].
    intros E. apply Z.eqb_eq in E. now subst.
  - intros ->. apply Z.eqb_refl.
Qed.

(** C10: a formatting pass is a function of [tickData] and [activeTick]
    alone: two runs that agree on them make the same setter calls in the
    same order, whatever the other fields of the hook result are; from
    equal cells they leave equal cells, and over a non-empty array they
    leave the same [formattedData] and [maxLiquidity] whatever the cells
    held before. *)
Theorem formatData_deterministic (d1 d2 : PoolTickData) :
  tickData d1 = tickData d2 -> activeTick d1 = activeTick d2 ->
  formatData d1 = formatData d2
  /\ (forall s : ChartState,
        apply_updates s (formatData d1) = apply_updates s (formatData d2))
  /\ forall (ticks : list TickProcessed) (s1 s2 : ChartState),
       tickData d1 = Some ticks -> ticks <> [] ->
       formattedData (apply_updates s1 (formatData d1))
       = formattedData (apply_updates s2 (formatData d2))
       /\ maxLiquidity (apply_updates s1 (formatData d1))
          = maxLiquidity (apply_updates s2 (formatData d2)).
Proof.
  intros Ht Ha.
  assert (E : formatData d1 = formatData d2)
    by (unfold formatData; now rewrite Ht, Ha).
  split; [exact E|]. split; [intros s; now rewrite E|].
  intros ticks s1 s2 Hd Hne. rewrite <- E.
  destruct (format_pass d1 s1 Hd Hne) as (F1 & M1 & _).
  destruct (format_pass d1 s2 Hd Hne) as (F2 & M2 & _).
  split; congruence.
Qed.

(** C6: while [loading] is true the formatting effect makes no setter
    call, so it leaves the three cells as they were, and the component
    renders the loading spinner alone.  Over a whole commit the other
    effect may still clear the series; [priceAtActiveTick] and
    [maxLiquidity] are untouched. *)
Theorem loading_skips_formatting (d : PoolTickData) :
  loading d = true ->
  formatEffect d = []
  /\ (forall s : ChartState, apply_updates s (formatEffect d) = s)
  /\ (forall (p : Props) (s : ChartState), DensityChart p d s = Spinner)
  /\ (forall (c : Changed) (p : Props) (s : ChartState),
        priceAtActiveTick (commit c p d s) = priceAtActiveTick s
        /\ maxLiquidity (commit c p d s) = maxLiquidity s
        /\ (clearEffect p s = [] -> commit c p d s = s)).
Proof.
  intros Hl.
  assert (E : formatEffect d = []) by (unfold formatEffect; now rewrite Hl).
  split; [exact E|]. split; [intros s; now rewrite E|].
  split; [intros p s; unfold DensityChart; cbn; now rewrite Hl|].
  intros c p s. unfold commit, effects. rewrite E.
  replace (if format_deps c then [] else []) with (@nil Update)
    by (now destruct (format_deps c)).
  rewrite app_nil_r. unfold clearEffect.
  destruct (clear_deps c), (inputs_cleared p && has_length (formattedData s));
    cbn; repeat split; intros; try reflexivity; discriminate.
Qed.

(** C8: when one of [currencyA], [currencyB], [feeAmount] is undefined and
    [formattedData] is a non-empty series, the clearing effect sets it to
    the empty array, and a render that is not loading then shows the
    empty-state message; when [formattedData] is undefined or already
    empty the effect makes no call. *)
Theorem cleared_inputs_reset (p : Props) (s : ChartState) :
  currencyA p = None \/ currencyB p = None \/ feeAmount p = None ->
  (forall series : list ChartEntry,
      formattedData s = Some series -> series <> [] ->
      clearEffect p s = [SetFormattedData []]
      /\ formattedData (apply_updates s (clearEffect p s)) = Some []
      /\ (forall (c : Changed) (d : PoolTickData),
            clear_deps c = true ->
            format_deps c = false \/ formatEffect d = [] ->
            formattedData (commit c p d s) = Some [])
      /\ forall d : PoolTickData,
           loading d = false ->
           DensityChart p d (apply_updates s (clearEffect p s))
           = Panel (syncing d) NoData)
  /\ (formattedData s = None \/ formattedData s = Some [] ->
      clearEffect p s = [] /\ apply_updates s (clearEffect p s) = s).
Proof.
  intros Hc.
  assert (Hi : inputs_cleared p = true).
  { unfold inputs_cleared. destruct Hc as [E|[E|E]]; rewrite E; cbn.
    - reflexivity.
    - now rewrite orb_true_r.
    - now rewrite orb_true_r. }
  split.
  - intros series Hs Hne.
    assert (E : clearEffect p s = [SetFormattedData []]).
    { unfold clearEffect. rewrite Hi, Hs. destruct series; [congruence|].
      reflexivity. }
    rewrite E. split; [reflexivity|]. split; [reflexivity|]. split.
    + intros c d Hc1 Hf. unfold commit, effects. rewrite Hc1, E.
      replace (if format_deps c then formatEffect d else []) with (@nil Update)
        by (destruct Hf as [-> | ->]; [reflexivity | now destruct (format_deps c)]).
      reflexivity.
    + intros d Hl. unfold DensityChart. cbn. now rewrite Hl.
  - intros Hs.
    assert (E : clearEffect p s = []).
    { unfold clearEffect. destruct Hs as [-> | ->]; cbn;
        now rewrite andb_false_r. }
    rewrite E. split; reflexivity.
Qed.

End Formatting.

Section Rendering.

Context {host : Host}.

Lemma DensityChart_loaded (p : Props) (d : PoolTickData) (s : ChartState) :
  loading d = false ->
  DensityChart p d s
  = Panel (syncing d)
      (match formattedData s with
       | Some [] => NoData
       | _ => Chart (chart p (useDensityChartData d s))
       end).
Proof. intros Hl. unfold DensityChart. cbn. now rewrite Hl. Qed.

Lemma DensityChart_loading (p : Props) (d : PoolTickData) (s : ChartState) :
  loading d = true -> DensityChart p d s = Spinner.
Proof. intros Hl. unfold DensityChart. cbn. now rewrite Hl. Qed.

Lemma DensityChart_ignores_error (e : bool) (p : Props) (d : PoolTickData)
    (s : ChartState) :
  DensityChart p (with_error e d) s = DensityChart p d s.
Proof. reflexivity. Qed.

Lemma commit_ignores_error (e : bool) (c : Changed) (p : Props)
    (d : PoolTickData) (s : ChartState) :
  commit c p (with_error e d) s = commit c p d s.
Proof. reflexivity. Qed.

(** C3, as amended: the component renders the spinner alone while
    [loading] is true; the corner indicator exactly when [syncing] is true
    and [loading] is false; the empty-state message exactly when [loading]
    is false and [formattedData] is a defined array of length 0; in every
    other case the chart.  The [error] flag changes neither what is
    rendered nor what a commit does to the cells. *)
Theorem failure_presentation (p : Props) (d : PoolTickData) (s : ChartState) :
  (DensityChart p d s = Spinner <-> loading d = true)
  /\ (shows_syncing_indicator (DensityChart p d s) = true
      <-> loading d = false /\ syncing d = true)
  /\ (shows_no_data (DensityChart p d s) = true
      <-> loading d = false /\ formattedData s = Some [])
  /\ (shown_chart (DensityChart p d s) = None
      <-> loading d = true \/ formattedData s = Some [])
  /\ (forall e : bool, DensityChart p (with_error e d) s = DensityChart p d s)
  /\ (forall (e : bool) (c : Changed),
        commit c p (with_error e d) s = commit c p d s).
Proof.
  assert (He := fun e => DensityChart_ignores_error e p d s).
  assert (Hc := fun e c => commit_ignores_error e c p d s).
  destruct (loading d) eqn:Hl.
  - rewrite (DensityChart_loading p d s Hl) in *. cbn.
    repeat (split; [split; solve [tauto | discriminate
                                 | intros [? _]; discriminate]|]).
    split; assumption.
  - rewrite (DensityChart_loaded p d s Hl) in *.
    destruct (formattedData s) as [[|e0 series]|] eqn:Hs; cbn;
      repeat (split; [split; solve [tauto | discriminate | congruence
                                   | intros [? ?]; congruence
                                   | intros [?|?]; congruence]|]);
      (split; assumption).
Qed.

(** C4: a render with [loading] false and [formattedData] undefined shows
    the bar chart over the seven points of [sampleData], not the
    empty-state message; the empty-state message is shown only when
    [formattedData] is a defined empty array. *)
Theorem undefined_data_shows_sample (p : Props) (d : PoolTickData) (s : ChartState) :
  loading d = false -> formattedData s = None ->
  (exists c : VictoryChart,
      DensityChart p d s = Panel (syncing d) (Chart c)
      /\ bar_data c = sampleData
      /\ List.length (bar_data c) = 7)
  /\ shows_no_data (DensityChart p d s) = false
  /\ forall (p' : Props) (d' : PoolTickData) (s' : ChartState),
       shows_no_data (DensityChart p' d' s') = true ->
       formattedData s' = Some [].
Proof.
  intros Hl Hs. rewrite (DensityChart_loaded p d s Hl), Hs.
  split; [|split].
  - eexists. split; [reflexivity|]. cbn. rewrite Hs. split; reflexivity.
  - reflexivity.
  - intros p' d' s'. unfold DensityChart. cbn.
    destruct (loading d'); [discriminate|].
    destruct (formattedData s') as [[|? ?]|]; cbn; congruence.
Qed.

(** C7: on every rendered chart, [allowDrag] and [allowResize] of the
    brush container and [allowDrag] of the [Brush] component are the truth
    of [formattedData] having positive length, which is that of
    [formattedData] being a non-empty array, and [allowDraw] is false. *)
Theorem brush_enabled_iff_data (p : Props) (d : PoolTickData) (s : ChartState)
    (c : VictoryChart) :
  shown_chart (DensityChart p d s) = Some c ->
  allowDrag (containerComponent c) = has_length (formattedData s)
  /\ allowResize (containerComponent c) = has_length (formattedData s)
  /\ brush_allowDrag (brushComponent (containerComponent c))
     = has_length (formattedData s)
  /\ allowDraw (containerComponent c) = false
  /\ (has_length (formattedData s) = true
      <-> exists series, formattedData s = Some series /\ series <> []).
Proof.
  intros Hc.
  assert (E : c = chart p (useDensityChartData d s)).
  { unfold DensityChart in Hc. cbn in Hc.
    destruct (loading d); [discriminate|].
    destruct (formattedData s) as [[|? ?]|]; cbn in Hc; congruence. }
  subst c. cbn. repeat split; try reflexivity.
  - destruct (formattedData s) as [series|]; [|discriminate].
    intros H. exists series. split; [reflexivity|].
    intros ->. discriminate.
  - intros (series & -> & Hne). destruct series; [congruence|reflexivity].
Qed.

End Rendering.

Section Brush.

Context {host : Host}.

Lemma left_calls (domain : Domain) (s : string) :
  In (onLeftRangeInput s) (onBrushDomainChangeEnd domain)
  <-> gt (Number (x0 domain)) 0%float = true
      /\ s = toFixed (Number (x0 domain)) PRICE_FIXED_DIGITS.
Proof.
  unfold onBrushDomainChangeEnd. cbv zeta. rewrite in_app_iff.
  destruct (gt (Number (x0 domain)) 0%float), (gt (Number (x1 domain)) 0%float); cbn;
    split; intros H;
    repeat match goal with
           | H : _ \/ _ |- _ => destruct H
           | H : _ /\ _ |- _ => destruct H
           | H : False |- _ => destruct H
           end; try discriminate; subst; auto.
  all: injection H as <-; auto.
Qed.

Lemma right_calls (domain : Domain) (s : string) :
  In (onRightRangeInput s) (onBrushDomainChangeEnd domain)
  <-> gt (Number (x1 domain)) 0%float = true
      /\ s = toFixed (Number (x1 domain)) PRICE_FIXED_DIGITS.
Proof.
  unfold onBrushDomainChangeEnd. cbv zeta. rewrite in_app_iff.
  destruct (gt (Number (x0 domain)) 0%float), (gt (Number (x1 domain)) 0%float); cbn;
    split; intros H;
    repeat match goal with
           | H : _ \/ _ |- _ => destruct H
           | H : _ /\ _ |- _ => destruct H
           | H : False |- _ => destruct H
           end; try discriminate; subst; auto.
  all: injection H as <-; auto.
Qed.

(** C1, as amended: when the brush is released on the domain [l, r],
    [onLeftRangeInput] is called with [l.toFixed(PRICE_FIXED_DIGITS)] if
    [l > 0], and [onRightRangeInput] with [r.toFixed(PRICE_FIXED_DIGITS)]
    if [r > 0]; neither callback is ever given another argument. *)
Theorem brush_forwards_bounds (domain : Domain) :
  (gt (Number (x0 domain)) 0%float = true ->
   In (onLeftRangeInput (toFixed (Number (x0 domain)) PRICE_FIXED_DIGITS))
      (onBrushDomainChangeEnd domain))
  /\ (gt (Number (x1 domain)) 0%float = true ->
      In (onRightRangeInput (toFixed (Number (x1 domain)) PRICE_FIXED_DIGITS))
         (onBrushDomainChangeEnd domain))
  /\ (forall s : string,
        In (onLeftRangeInput s) (onBrushDomainChangeEnd domain) ->
        s = toFixed (Number (x0 domain)) PRICE_FIXED_DIGITS)
  /\ (forall s : string,
        In (onRightRangeInput s) (onBrushDomainChangeEnd domain) ->
        s = toFixed (Number (x1 domain)) PRICE_FIXED_DIGITS).
Proof.
  repeat split.
  - intros H. now apply left_calls.
  - intros H. now apply right_calls.
  - intros s H. now apply left_calls in H.
  - intros s H. now apply right_calls in H.
Qed.

(** C5: when the brush is released, [onLeftRangeInput] is called if and
    only if the new left bound is greater than 0, and [onRightRangeInput]
    if and only if the new right bound is; each at most once, and whether
    one side is called does not depend on the other bound. *)
Theorem brush_calls_iff_positive (domain : Domain) :
  ((exists s, In (onLeftRangeInput s) (onBrushDomainChangeEnd domain))
   <-> gt (Number (x0 domain)) 0%float = true)
  /\ ((exists s, In (onRightRangeInput s) (onBrushDomainChangeEnd domain))
      <-> gt (Number (x1 domain)) 0%float = true)
  /\ List.length (filter is_left (onBrushDomainChangeEnd domain))
     = (if gt (Number (x0 domain)) 0%float then 1 else 0)%nat
  /\ List.length (filter is_right (onBrushDomainChangeEnd domain))
     = (if gt (Number (x1 domain)) 0%float then 1 else 0)%nat.
Proof.
  split; [|split].
  - split.
    + intros [s H]. now apply left_calls in H.
    + intros H. eexists. apply left_calls. split; [exact H | reflexivity].
  - split.
    + intros [s H]. now apply right_calls in H.
    + intros H. eexists. apply right_calls. split; [exact H | reflexivity].
  - unfold onBrushDomainChangeEnd. cbv zeta.
    destruct (gt (Number (x0 domain)) 0%float), (gt (Number (x1 domain)) 0%float);
      split; reflexivity.
Qed.

End Brush.

Section Marker.

Context {host : Host}.

(** C9, as amended: after a formatting pass over a non-empty [tickData]
    array, [maxLiquidity] is the float parse of the printed [m], where [m]
    is the larger of 0 and the greatest [liquidityActive] of the array,
    compared as big integers; and when [maxLiquidity] and
    [priceAtActiveTick] are then both truthy (defined, not zero, not NaN)
    the data of the current-price marker line is the two points
    [(priceAtActiveTick, 0)] and [(priceAtActiveTick, maxLiquidity)], the
    line being rendered with the chart when [price] is a non-empty
    string. *)
Theorem maxLiquidity_and_marker (d : PoolTickData) (ticks : list TickProcessed)
    (s : ChartState) :
  tickData d = Some ticks -> ticks <> [] ->
  exists (m g : Z),
    greatest ticks = Some g /\ m = Z.max 0 g
    /\ (forall t, In t ticks -> (liquidityActive t <= m)%Z)
    /\ (m = 0%Z \/ exists t, In t ticks /\ liquidityActive t = m)
    /\ maxLiquidity (apply_updates s (formatData d))
       = parseFloat (BigInt_toString m)
    /\ forall x : number,
         priceAtActiveTick (apply_updates s (formatData d)) = Some x ->
         truthy (maxLiquidity (apply_updates s (formatData d))) = true ->
         truthy x = true ->
         let line :=
           [ {| pt_x := x; pt_y := 0%float |};
             {| pt_x := x; pt_y := parseFloat (BigInt_toString m) |} ] in
         marker (useDensityChartData d (apply_updates s (formatData d))) = line
         /\ forall (p : Props) (text : string),
              loading d = false -> price p = Some text -> text <> EmptyString ->
              exists c : VictoryChart,
                shown_chart (DensityChart p d (apply_updates s (formatData d)))
                = Some c
                /\ line_data c = Some line.
Proof.
  intros Hd Hne.
  destruct (format_pass d s Hd Hne) as (Hseries & Hmax & _).
  destruct ticks as [|t0 ticks]; [congruence|].
  set (s' := apply_updates s (formatData d)) in *.
  exists (fold_left Z.max (map liquidityActive (t0 :: ticks)) 0%Z).
  exists (fold_left Z.max (map liquidityActive ticks) (liquidityActive t0)).
  destruct (fold_max_bounds (map liquidityActive (t0 :: ticks)) 0%Z)
    as (Hlow & Hup & Hin).
  split; [reflexivity|]. split.
  { cbn [map fold_left].
    assert (G : forall l a b, fold_left Z.max l (Z.max a b)
                              = Z.max a (fold_left Z.max l b)).
    { induction l as [|y l IH]; intros a b; cbn; [reflexivity|].
      now rewrite <- IH, <- Z.max_assoc. }
    apply G. }
  split.
  { intros t Ht. apply Hup. now apply in_map. }
  split.
  { destruct Hin as [E|Hm]; [now left|right].
    apply in_map_iff in Hm. destruct Hm as (t & E & Ht). now exists t. }
  split; [exact Hmax|].
  intros x Hx Hm Htx line.
  assert (E : marker (useDensityChartData d s') = line).
  { unfold marker. cbn [r_priceAtActiveTick r_maxLiquidity useDensityChartData].
    rewrite Hx, Hm, Htx. cbn [andb]. subst line. now rewrite Hmax. }
  split; [exact E|].
  intros p text Hl Hp Htext.
  rewrite (DensityChart_loaded p d s' Hl), Hseries.
  cbn [entries]. cbn [shown_chart]. eexists. split; [reflexivity|].
  cbn [line_data chart]. rewrite Hp.
  destruct text; [congruence|]. cbn [truthy_string]. now rewrite E.
Qed.

End Marker.

(** * Further properties of the hook *)

Section Passes.

Context {host : Host}.

Lemma state_ext (s1 s2 : ChartState) :
  formattedData s1 = formattedData s2 ->
  priceAtActiveTick s1 = priceAtActiveTick s2 ->
  maxLiquidity s1 = maxLiquidity s2 ->
  s1 = s2.
Proof. destruct s1, s2; cbn; intros; subst; reflexivity. Qed.

Lemma price_calls_step (a : option Z) (t : TickProcessed) (l : list TickProcessed) :
  price_calls a (t :: l)
  = if is_active a t
    then SetPriceAtActiveTick (parseFloat (price0 t)) :: price_calls a l
    else price_calls a l.
Proof. reflexivity. Qed.

Lemma price_calls_app (a : option Z) (l1 l2 : list TickProcessed) :
  price_calls a (l1 ++ l2) = price_calls a l1 ++ price_calls a l2.
Proof.
  induction l1 as [|t l1 IH]; [reflexivity|].
  rewrite <- app_comm_cons, !price_calls_step, IH.
  now destruct (is_active a t).
Qed.

Lemma price_calls_none (a : option Z) (l : list TickProcessed) :
  (forall t, In t l -> is_active a t = false) -> price_calls a l = [].
Proof.
  induction l as [|t l IH]; intros H; [reflexivity|].
  rewrite price_calls_step, (H t (or_introl eq_refl)).
  apply IH. intros u Hu. apply H. now right.
Qed.

(** A pass either makes no [setPriceAtActiveTick] call, or leaves a price
    that does not depend on the cells it started from. *)
Lemma price_calls_settle (a : option Z) (l : list TickProcessed) :
  price_calls a l = []
  \/ exists x : number,
       forall s : ChartState,
         priceAtActiveTick (apply_updates s (price_calls a l)) = Some x.
Proof.
  induction l as [|t l IH]; [now left|].
  rewrite price_calls_step. destruct (is_active a t); [right|exact IH].
  destruct IH as [E|[x Hx]].
  - rewrite E. now exists (parseFloat (price0 t)).
  - exists x. intros s. exact (Hx (apply_update s (SetPriceAtActiveTick (parseFloat (price0 t))))).
Qed.

Lemma formatData_cases (d : PoolTickData) :
  formatData d = []
  \/ exists ticks, tickData d = Some ticks /\ ticks <> [].
Proof.
  unfold formatData. destruct (tickData d) as [[|t l]|].
  - now left.
  - right. exists (t :: l). split; [reflexivity|discriminate].
  - now left.
Qed.

Lemma entries_index (a : option Z) (l : list TickProcessed) :
  forall (i k : nat) (e : ChartEntry),
    nth_error (entries a i l) k = Some e -> index e = i + k.
Proof.
  induction l as [|t l IH]; intros i k e H.
  - destruct k; discriminate.
  - destruct k as [|k]; cbn in H.
    + injection H as <-. cbn. lia.
    + rewrite (IH (S i) k e H). lia.
Qed.

Lemma entries_in (a : option Z) (l : list TickProcessed) :
  forall (i : nat) (e : ChartEntry),
    In e (entries a i l) ->
    exists t, In t l /\ isCurrent e = is_active a t.
Proof.
  induction l as [|t l IH]; intros i e H; [destruct H|].
  destruct H as [<-|H].
  - exists t. split; [now left|reflexivity].
  - destruct (IH (S i) e H) as (u & Hu & E). exists u. split; [now right|exact E].
Qed.

Lemma entries_current (a : option Z) (l : list TickProcessed) :
  forall i : nat,
    List.length (filter isCurrent (entries a i l))
    = List.length (filter (is_active a) l).
Proof.
  induction l as [|t l IH]; intros i; [reflexivity|].
  cbn [entries filter]. change (isCurrent (entry_of a i t)) with (is_active a t).
  destruct (is_active a t); cbn [List.length]; now rewrite IH.
Qed.

(** X1: after a formatting pass, [priceAtActiveTick] is the float parse of
    [price0] of the last tick of the array whose [tickIdx] is [activeTick]. *)
Theorem priceAtActiveTick_last_match (d : PoolTickData)
    (before after : list TickProcessed) (t : TickProcessed) (s : ChartState) :
  tickData d = Some (before ++ t :: after) ->
  activeTick d = Some (tickIdx t) ->
  (forall u, In u after -> tickIdx u <> tickIdx t) ->
  priceAtActiveTick (apply_updates s (formatData d)) = Some (parseFloat (price0 t)).
Proof.
  intros Hd Ha Hafter.
  assert (Hne : before ++ t :: after <> []) by (destruct before; discriminate).
  destruct (format_pass d s Hd Hne) as (_ & _ & Hp). rewrite Hp, Ha.
  rewrite price_calls_app, price_calls_step.
  replace (is_active (Some (tickIdx t)) t) with true
    by (symmetry; apply Z.eqb_refl).
  rewrite (price_calls_none (Some (tickIdx t)) after).
  - now rewrite apply_updates_app.
  - intros u Hu. apply Z.eqb_neq. now apply Hafter.
Qed.

(** X2: when no tick of the array has [activeTick] as its [tickIdx], a
    formatting pass replaces the series, with no entry marked current, and
    leaves [priceAtActiveTick] at the value it had before the pass. *)
Theorem priceAtActiveTick_kept_without_match (d : PoolTickData)
    (ticks : list TickProcessed) (s : ChartState) :
  tickData d = Some ticks -> ticks <> [] ->
  (forall t, In t ticks -> activeTick d <> Some (tickIdx t)) ->
  priceAtActiveTick (apply_updates s (formatData d)) = priceAtActiveTick s
  /\ exists series : list ChartEntry,
       formattedData (apply_updates s (formatData d)) = Some series
       /\ List.length series = List.length ticks
       /\ forall e, In e series -> isCurrent e = false.
Proof.
  intros Hd Hne Hnone.
  assert (Hin : forall t, In t ticks -> is_active (activeTick d) t = false).
  { intros t Ht. specialize (Hnone t Ht). unfold is_active.
    destruct (activeTick d) as [a|]; [|reflexivity].
    apply Z.eqb_neq. congruence. }
  destruct (format_pass d s Hd Hne) as (Hs & _ & Hp). split.
  - now rewrite Hp, (price_calls_none (activeTick d) ticks Hin).
  - exists (entries (activeTick d) 0 ticks). split; [exact Hs|].
    split; [apply entries_length|].
    intros e He. destruct (entries_in _ _ _ _ He) as (t & Ht & ->). now apply Hin.
Qed.

(** X3: a formatting pass is idempotent: run again on the same pool data,
    it leaves the three cells as its first run left them. *)
Theorem formatData_idempotent (d : PoolTickData) (s : ChartState) :
  apply_updates (apply_updates s (formatData d)) (formatData d)
  = apply_updates s (formatData d).
Proof.
  destruct (formatData_cases d) as [E|(ticks & Hd & Hne)]; [now rewrite E|].
  set (s' := apply_updates s (formatData d)).
  destruct (format_pass d s Hd Hne) as (F1 & M1 & P1).
  destruct (format_pass d s' Hd Hne) as (F2 & M2 & P2).
  fold s' in F1, M1, P1.
  apply state_ext; [congruence | | congruence].
  rewrite P2.
  destruct (price_calls_settle (activeTick d) ticks) as [E|[x Hx]].
  - rewrite E. cbn. reflexivity.
  - rewrite Hx, P1. symmetry. apply Hx.
Qed.

(** X4: the formatting effect makes no setter call when [tickData] is
    undefined or empty, and it never sets [formattedData] to the empty
    array: that is the empty array after the effect only if it was
    before. *)
Theorem formatEffect_never_empties (d : PoolTickData) (s : ChartState) :
  (tickData d = None \/ tickData d = Some [] -> formatEffect d = [])
  /\ (formattedData (apply_updates s (formatEffect d)) = Some [] ->
      formattedData s = Some []).
Proof.
  split.
  - intros H. unfold formatEffect, formatData.
    destruct H as [-> | ->]; now destruct (negb (loading d)).
  - unfold formatEffect. destruct (negb (loading d)); [|trivial].
    destruct (formatData_cases d) as [E|(ticks & Hd & Hne)]; [now rewrite E|].
    destruct (format_pass d s Hd Hne) as (F & _ & _). rewrite F.
    destruct ticks; [congruence|discriminate].
Qed.

(** X5: the clearing effect writes no cell but [formattedData], and it
    settles: run again after its own update, under the same or any other
    props, it makes no further call. *)
Theorem clearEffect_settles (p : Props) (s : ChartState) :
  priceAtActiveTick (apply_updates s (clearEffect p s)) = priceAtActiveTick s
  /\ maxLiquidity (apply_updates s (clearEffect p s)) = maxLiquidity s
  /\ clearEffect p (apply_updates s (clearEffect p s)) = []
  /\ (clearEffect p s <> [] ->
      forall p' : Props, clearEffect p' (apply_updates s (clearEffect p s)) = []).
Proof.
  assert (Hs : forall p' : Props,
             clearEffect p' (apply_updates s [SetFormattedData []]) = []).
  { intros p'. unfold clearEffect. cbn. now rewrite andb_false_r. }
  destruct (inputs_cleared p && has_length (formattedData s)) eqn:E.
  - assert (Ec : clearEffect p s = [SetFormattedData []])
      by (unfold clearEffect; now rewrite E).
    rewrite Ec. repeat split; try reflexivity; [apply Hs | intros _; apply Hs].
  - assert (Ec : clearEffect p s = [])
      by (unfold clearEffect; now rewrite E).
    rewrite Ec. repeat split; try reflexivity; [exact Ec | congruence].
Qed.

(** X12: the clearing effect calls [setFormattedData([])], once, exactly
    when [formattedData] is a non-empty series and [currencyA] or
    [currencyB] is undefined or [feeAmount] is undefined or 0; in every
    other case it makes no call. *)
Theorem clearEffect_fires_iff (p : Props) (s : ChartState) :
  (clearEffect p s = [SetFormattedData []]
   <-> (currencyA p = None \/ currencyB p = None
        \/ feeAmount p = None \/ feeAmount p = Some 0%Z)
       /\ exists series, formattedData s = Some series /\ series <> [])
  /\ (clearEffect p s = [SetFormattedData []] \/ clearEffect p s = []).
Proof.
  assert (Hi : inputs_cleared p = true
               <-> currencyA p = None \/ currencyB p = None
                   \/ feeAmount p = None \/ feeAmount p = Some 0%Z).
  { unfold inputs_cleared.
    destruct (currencyA p), (currencyB p), (feeAmount p) as [f|]; cbn;
      try (split; [intros _; tauto | reflexivity]).
    unfold truthy_int. rewrite negb_involutive. split.
    - intros H. apply Z.eqb_eq in H. subst. tauto.
    - intros [H|[H|[H|H]]]; try discriminate. injection H as ->. reflexivity. }
  assert (Hl : has_length (formattedData s) = true
               <-> exists series, formattedData s = Some series /\ series <> []).
  { destruct (formattedData s) as [[|e l]|]; cbn; split;
      try discriminate; try reflexivity.
    - intros (series & E & Hne). congruence.
    - intros _. exists (e :: l). split; [reflexivity|discriminate].
    - intros (series & E & _). discriminate. }
  unfold clearEffect.
  destruct (inputs_cleared p) eqn:E1, (has_length (formattedData s)) eqn:E2; cbn;
    (split; [split|]); try tauto; try discriminate;
    try (intros [H1 H2]; try (apply Hi in H1); try (apply Hl in H2); discriminate).
Qed.

End Passes.

Section Commits.

Context {host : Host}.

(** What a commit can leave in [formattedData] and in [maxLiquidity]. *)
Lemma commit_cases (c : Changed) (p : Props) (d : PoolTickData) (s : ChartState) :
  (formattedData (commit c p d s) = formattedData s
   \/ formattedData (commit c p d s) = Some []
   \/ exists ticks, formattedData (commit c p d s)
                    = Some (entries (activeTick d) 0 ticks))
  /\ (maxLiquidity (commit c p d s) = maxLiquidity s
      \/ exists ticks,
           maxLiquidity (commit c p d s)
           = parseFloat (BigInt_toString
                           (fold_left Z.max (map liquidityActive ticks) 0%Z))).
Proof.
  unfold commit, effects. rewrite apply_updates_app.
  set (s1 := apply_updates s (if clear_deps c then clearEffect p s else [])).
  assert (H1 : (formattedData s1 = formattedData s \/ formattedData s1 = Some [])
               /\ maxLiquidity s1 = maxLiquidity s).
  { subst s1. destruct (clear_deps c); [|split; [now left|reflexivity]].
    unfold clearEffect.
    destruct (inputs_cleared p && has_length (formattedData s)); cbn;
      split; auto. }
  destruct H1 as [F1 M1].
  assert (H2 : (if format_deps c then formatEffect d else []) = []
               \/ exists ticks, tickData d = Some ticks /\ ticks <> []
                    /\ (if format_deps c then formatEffect d else []) = formatData d).
  { destruct (format_deps c); [|now left]. unfold formatEffect.
    destruct (negb (loading d)); [|now left].
    destruct (formatData_cases d) as [E|(ticks & Hd & Hne)]; [now left|].
    right. now exists ticks. }
  destruct H2 as [E|(ticks & Hd & Hne & E)]; rewrite E.
  - cbn. split; [tauto | now left].
  - destruct (format_pass d s1 Hd Hne) as (F & M & _). split.
    + right; right. now exists ticks.
    + right. now exists ticks.
Qed.

(** X6: when the formatting effect runs in a commit with [loading] false
    over a non-empty [tickData] array, the commit leaves the formatted
    series in [formattedData], one entry per tick, also when the clearing
    effect fired in the same commit: the later [setFormattedData] wins. *)
Theorem fresh_ticks_override_clearing (c : Changed) (p : Props) (d : PoolTickData)
    (ticks : list TickProcessed) (s : ChartState) :
  format_deps c = true -> loading d = false ->
  tickData d = Some ticks -> ticks <> [] ->
  formattedData (commit c p d s) = formattedData (apply_updates s (formatData d))
  /\ exists series : list ChartEntry,
       formattedData (commit c p d s) = Some series
       /\ List.length series = List.length ticks
       /\ series <> [].
Proof.
  intros Hc Hl Hd Hne. unfold commit, effects. rewrite Hc, apply_updates_app.
  unfold formatEffect. rewrite Hl. cbn [negb].
  destruct (format_pass d (apply_updates s (if clear_deps c then clearEffect p s else []))
              Hd Hne) as (F & _ & _).
  destruct (format_pass d s Hd Hne) as (F' & _ & _).
  rewrite F, F'. split; [reflexivity|].
  exists (entries (activeTick d) 0 ticks). split; [reflexivity|].
  split; [apply entries_length|].
  destruct ticks; [congruence|discriminate].
Qed.

(** X7: in every state the hook reaches from its mount, through any
    sequence of commits, a defined [formattedData] carries at each position
    [i] an entry whose [index] is [i], and [maxLiquidity] is the initial 0
    or the float parse of a printed big integer that is not negative. *)
Theorem reachable_invariant (s : ChartState) :
  reachable s ->
  (forall series, formattedData s = Some series -> well_indexed series)
  /\ (maxLiquidity s = 0%float
      \/ exists m : Z, (0 <= m)%Z /\ maxLiquidity s = parseFloat (BigInt_toString m)).
Proof.
  induction 1 as [|c p d s Hr [IHf IHm]].
  - split; [discriminate | now left].
  - destruct (commit_cases c p d s) as [Hf Hm]. split.
    + intros series Hs. destruct Hf as [E|[E|(ticks & E)]]; rewrite E in Hs.
      * now apply IHf.
      * injection Hs as <-. intros i e H. destruct i; discriminate.
      * injection Hs as <-. intros i e H.
        now rewrite (entries_index _ _ _ _ H).
    + destruct Hm as [E|(ticks & E)]; rewrite E; [exact IHm|].
      right. eexists. split; [|reflexivity].
      now destruct (fold_max_bounds (map liquidityActive ticks) 0%Z) as [H0 _].
Qed.

Lemma filter_eqb_NoDup (a : Z) (l : list Z) :
  NoDup l -> List.length (filter (fun x => Z.eqb x a) l) <= 1.
Proof.
  induction 1 as [|x l Hx Hl IH]; cbn; [lia|].
  destruct (Z.eqb_spec x a) as [->|Hne]; [|exact IH].
  assert (E : filter (fun x => Z.eqb x a) l = []).
  { clear IH Hl. induction l as [|y l IHl]; [reflexivity|]. cbn.
    destruct (Z.eqb_spec y a) as [->|_].
    - exfalso. apply Hx. now left.
    - apply IHl. intros H. apply Hx. now right. }
  rewrite E. cbn. lia.
Qed.

Lemma active_count (a : option Z) (ticks : list TickProcessed) :
  NoDup (map tickIdx ticks) ->
  List.length (filter (is_active a) ticks) <= 1.
Proof.
  intros Hnd. destruct a as [a|].
  - assert (E : List.length (filter (is_active (Some a)) ticks)
                = List.length (filter (fun x => Z.eqb x a) (map tickIdx ticks))).
    { clear Hnd. induction ticks as [|t l IH]; [reflexivity|]. cbn.
      destruct (tickIdx t =? a)%Z; cbn; now rewrite IH. }
    rewrite E. now apply filter_eqb_NoDup.
  - assert (E : filter (is_active None) ticks = []).
    { clear Hnd. induction ticks as [|t l IH]; [reflexivity|exact IH]. }
    rewrite E. cbn. lia.
Qed.

(** X11: when the ticks of the array have pairwise different [tickIdx], a
    formatting pass marks at most one entry of the series as current, and
    none when [activeTick] is undefined. *)
Theorem at_most_one_current (d : PoolTickData) (ticks : list TickProcessed)
    (s : ChartState) :
  tickData d = Some ticks -> ticks <> [] -> NoDup (map tickIdx ticks) ->
  exists series : list ChartEntry,
    formattedData (apply_updates s (formatData d)) = Some series
    /\ List.length (filter isCurrent series) <= 1
    /\ (activeTick d = None -> filter isCurrent series = []).
Proof.
  intros Hd Hne Hnd. destruct (format_pass d s Hd Hne) as (F & _ & _).
  exists (entries (activeTick d) 0 ticks). split; [exact F|]. split.
  - rewrite entries_current. now apply active_count.
  - intros Ha. rewrite Ha.
    assert (L : List.length (filter isCurrent (entries None 0 ticks)) = 0).
    { rewrite entries_current. clear.
      induction ticks as [|t l IH]; [reflexivity|exact IH]. }
    destruct (filter isCurrent (entries None 0 ticks)); [reflexivity|discriminate].
Qed.

End Commits.

Section Display.

Context {host : Host}.

(** X10: after a formatting pass over a non-empty array, a render that is
    not loading shows the chart, never the empty-state message, with the
    brush draggable and resizable and one bar per tick, in the order of the
    ticks: the bar of a tick has the float parse of its [price0] as x and
    the float parse of its printed [liquidityActive] as y. *)
Theorem formatted_chart_bars (p : Props) (d : PoolTickData)
    (ticks : list TickProcessed) (s : ChartState) :
  tickData d = Some ticks -> ticks <> [] -> loading d = false ->
  exists c : VictoryChart,
    DensityChart p d (apply_updates s (formatData d)) = Panel (syncing d) (Chart c)
    /\ allowDrag (containerComponent c) = true
    /\ allowResize (containerComponent c) = true
    /\ brush_allowDrag (brushComponent (containerComponent c)) = true
    /\ List.length (bar_data c) = List.length ticks
    /\ forall (i : nat) (t : TickProcessed),
         nth_error ticks i = Some t ->
         exists bar : PartialChartEntry,
           nth_error (bar_data c) i = Some bar
           /\ p_price0 bar = Some (parseFloat (price0 t))
           /\ p_activeLiquidity bar
              = Some (parseFloat (BigInt_toString (liquidityActive t))).
Proof.
  intros Hd Hne Hl.
  destruct (format_pass d s Hd Hne) as (F & _ & _).
  set (s' := apply_updates s (formatData d)) in *.
  rewrite (DensityChart_loaded p d s' Hl), F.
  destruct ticks as [|t0 ticks]; [congruence|].
  cbn [entries]. eexists. split; [reflexivity|].
  cbn [containerComponent chart allowDrag allowResize brushComponent
       brush_allowDrag bar_data r_formattedData useDensityChartData].
  rewrite F. cbn [has_length]. 
  assert (Hlen : truthy_int (Z.of_nat (List.length (entries (activeTick d) 0 (t0 :: ticks)))) = true).
  { rewrite entries_length. cbn [List.length]. unfold truthy_int.
    apply negb_true_iff, Z.eqb_neq. lia. }
  rewrite Hlen. repeat split.
  - now rewrite length_map, entries_length.
  - intros i t Hi. rewrite nth_error_map.
    rewrite (entries_nth (activeTick d) (t0 :: ticks) 0 i Hi).
    eexists. split; [reflexivity|]. split; reflexivity.
Qed.

(** X8: the brush domain is defined exactly when [priceLower] and
    [priceUpper] both are.  When both currencies are defined and
    [currencyA] sorts before [currencyB] it runs from the lower to the upper
    price; otherwise, also when a currency is undefined, from the inverted
    upper price to the inverted lower price; each end is the float parse of
    the price printed to 5 significant digits. *)
Theorem brush_domain_defined (p : Props) :
  (defined (brush_domain p) = defined (priceLower p) && defined (priceUpper p))
  /\ (currencyA p = None \/ currencyB p = None -> isSorted p = false)
  /\ (forall lower upper : Price,
        priceLower p = Some lower -> priceUpper p = Some upper ->
        brush_domain p
        = if isSorted p
          then Some (parseFloat (toSignificant lower 5),
                     parseFloat (toSignificant upper 5))
          else Some (parseFloat (toSignificant (invert upper) 5),
                     parseFloat (toSignificant (invert lower) 5))).
Proof.
  unfold brush_domain, leftPrice, rightPrice. repeat split.
  - destruct (isSorted p), (priceLower p), (priceUpper p); reflexivity.
  - unfold isSorted. intros [-> | ->]; [reflexivity|].
    now destruct (currencyA p).
  - intros lower upper -> ->. now destruct (isSorted p).
Qed.

(** X9: the marker line has no point or two points at the same x, and its
    label function puts the price text on the upper point alone: the point
    at y = 0 is labelled with the empty string. *)
Theorem marker_label_at_top (r : ChartData) (text : string) :
  marker r = []
  \/ exists foot top : Point,
       marker r = [foot; top]
       /\ pt_x foot = pt_x top
       /\ pt_y foot = 0%float
       /\ labels text foot = EmptyString
       /\ labels text top = text.
Proof.
  unfold marker. destruct (r_priceAtActiveTick r) as [x|]; [|now left].
  destruct (truthy (r_maxLiquidity r)) eqn:Hm; [|now left].
  destruct (truthy x); [|now left]. right.
  eexists. eexists. split; [reflexivity|]. cbn [pt_x pt_y].
  repeat split. unfold labels, strict_ne. cbn [pt_y].
  unfold truthy in Hm. apply negb_true_iff, orb_false_iff in Hm.
  destruct Hm as [Hm _]. now rewrite Hm.
Qed.

End Display.

(** * The properties on the sample inputs, with the reference host *)

#[local] Existing Instance reference.

(** The reference built-ins on a few literals. *)
Example parseFloat_runs :
  map Ecma.parseFloat ["2500"; "-5"; "1.00000"; "  0.5px"; ".25e1"; "1e"; "-Infinity"]%string
  = [2500; -5; 1; 0.5; 2.5; 1; neg_infinity]%float
  /\ PrimFloat.is_nan (Ecma.parseFloat "px") = true
  /\ Ecma.parseFloat "9007199254740993" = 9007199254740992%float.
Proof. repeat split. Qed.

Example toFixed_runs :
  map (fun x => Ecma.Number_toFixed x 8) [0; 0.5; 2.25; -5; 1e21; infinity]%float
  = ["0.00000000"; "0.50000000"; "2.25000000"; "-5.00000000"; "1e+21"; "Infinity"]%string
  /\ map (fun x => Ecma.Number_toFixed x 0) [0.5; 2.5; 1234.5]%float
     = ["1"; "3"; "1235"]%string.
Proof. split; vm_compute; reflexivity. Qed.

(** A first commit on the loaded pool, then the render that follows. *)
Example mount_then_render :
  commit {| clear_deps := true; format_deps := true |}
    Sample.form Sample.loaded initialState = Sample.formatted
  /\ maxLiquidity Sample.formatted = 2500%float
  /\ priceAtActiveTick Sample.formatted = Some 1%float
  /\ option_map line_data
       (shown_chart (DensityChart Sample.form Sample.loaded Sample.formatted))
     = Some (Some [ {| pt_x := 1; pt_y := 0 |}; {| pt_x := 1; pt_y := 2500 |} ]%float).
Proof. repeat split. Qed.

(** The brush released on a few domains. *)
Example brush_runs :
  onBrushDomainChangeEnd Sample.inside
  = [onLeftRangeInput "0.50000000"; onRightRangeInput "2.25000000"]
  /\ onBrushDomainChangeEnd {| x0 := DNumber (-1)%float; x1 := DNumber 2%float |}
     = [onRightRangeInput "2.00000000"]
  /\ onBrushDomainChangeEnd {| x0 := DNumber nan; x1 := DNumber (-0)%float |} = [].
Proof. repeat split. Qed.

Example formatData_series_run :
  exists series : list ChartEntry,
    formattedData Sample.formatted = Some series
    /\ List.length series = 3
    /\ forall (i : nat) (t : TickProcessed),
         nth_error Sample.ticks i = Some t ->
         exists e : ChartEntry,
           nth_error series i = Some e
           /\ index e = i
           /\ (isCurrent e = true <-> activeTick Sample.loaded = Some (tickIdx t))
           /\ activeLiquidity e = parseFloat (BigInt_toString (liquidityActive t))
           /\ entry_price0 e = parseFloat (price0 t)
           /\ entry_price1 e = parseFloat (price1 t).
Proof.
  apply (formatData_series Sample.loaded (ticks := Sample.ticks) initialState).
  - reflexivity.
  - discriminate.
Defined.

Example formatData_deterministic_run :
  loading Sample.loaded <> loading Sample.fetching
  /\ formatData Sample.loaded = formatData Sample.fetching.
Proof.
  split; [discriminate|].
  exact (proj1 (formatData_deterministic Sample.loaded Sample.fetching
                  eq_refl eq_refl)).
Defined.

Example loading_skips_formatting_run :
  formatEffect Sample.fetching = []
  /\ apply_updates Sample.formatted (formatEffect Sample.fetching) = Sample.formatted
  /\ DensityChart Sample.form Sample.fetching Sample.formatted = Spinner.
Proof.
  destruct (loading_skips_formatting Sample.fetching eq_refl) as (H1 & H2 & H3 & _).
  exact (conj H1 (conj (H2 _) (H3 _ _))).
Defined.

Example cleared_inputs_reset_run :
  formattedData (apply_updates Sample.formatted (clearEffect Sample.cleared Sample.formatted))
  = Some []
  /\ DensityChart Sample.cleared Sample.absent
       (apply_updates Sample.formatted (clearEffect Sample.cleared Sample.formatted))
     = Panel false NoData
  /\ apply_updates Sample.emptied (clearEffect Sample.cleared Sample.emptied)
     = Sample.emptied.
Proof.
  destruct (cleared_inputs_reset Sample.cleared Sample.formatted
              (or_intror (or_introl eq_refl))) as (H1 & _).
  destruct (cleared_inputs_reset Sample.cleared Sample.emptied
              (or_intror (or_introl eq_refl))) as (_ & H2).
  destruct (H1 (entries (Some 0%Z) 0 Sample.ticks)) as (_ & E1 & _ & E2).
  - reflexivity.
  - discriminate.
  - exact (conj E1 (conj (E2 Sample.absent eq_refl) (proj2 (H2 (or_intror eq_refl))))).
Defined.

Example undefined_data_shows_sample_run :
  exists c : VictoryChart,
    DensityChart Sample.form Sample.absent initialState = Panel false (Chart c)
    /\ bar_data c = sampleData
    /\ List.length (bar_data c) = 7.
Proof.
  exact (proj1 (undefined_data_shows_sample Sample.form Sample.absent initialState
                  eq_refl eq_refl)).
Defined.

Example brush_enabled_iff_data_run :
  allowDrag (containerComponent (chart Sample.form (useDensityChartData Sample.loaded Sample.formatted)))
  = has_length (formattedData Sample.formatted)
  /\ allowDrag (containerComponent (chart Sample.form (useDensityChartData Sample.absent initialState)))
     = has_length (formattedData initialState).
Proof.
  split.
  - apply (brush_enabled_iff_data Sample.form Sample.loaded Sample.formatted). reflexivity.
  - apply (brush_enabled_iff_data Sample.form Sample.absent initialState). reflexivity.
Defined.

Example maxLiquidity_and_marker_run :
  exists m g : Z,
    greatest Sample.ticks = Some g /\ m = Z.max 0 g
    /\ maxLiquidity Sample.formatted = parseFloat (BigInt_toString m).
Proof.
  destruct (maxLiquidity_and_marker Sample.loaded (ticks := Sample.ticks) initialState)
    as (m & g & Hg & Hm & _ & _ & Hmax & _).
  - reflexivity.
  - discriminate.
  - exists m, g. exact (conj Hg (conj Hm Hmax)).
Defined.

Example brush_forwards_bounds_run :
  In (onLeftRangeInput "0.50000000") (onBrushDomainChangeEnd Sample.inside)
  /\ In (onRightRangeInput "2.25000000") (onBrushDomainChangeEnd Sample.inside).
Proof.
  destruct (brush_forwards_bounds Sample.inside) as (Hl & Hr & _).
  exact (conj (Hl eq_refl) (Hr eq_refl)).
Defined.

(** ** Where the statements as first written fail *)

(** C1: released with its left handle at 0, the brush calls
    [onRightRangeInput] alone: [onLeftRangeInput] is not called with the
    fixed-point rendering of the left bound, nor with anything else. *)
Example origin_not_forwarded :
  onBrushDomainChangeEnd Sample.at_origin = [onRightRangeInput "1.00000000"]
  /\ ~ In (onLeftRangeInput (toFixed (Number (x0 Sample.at_origin)) PRICE_FIXED_DIGITS))
         (onBrushDomainChangeEnd Sample.at_origin).
Proof.
  split; [reflexivity|].
  intros H. apply left_calls in H. destruct H as [H _]. discriminate H.
Qed.

(** C3: while [loading] is true a defined empty [formattedData] does not
    bring up the empty-state message; the spinner is rendered instead. *)
Example empty_while_loading :
  ~ (shows_no_data (DensityChart Sample.form Sample.fetching Sample.emptied) = true
     <-> formattedData Sample.emptied = Some []).
Proof.
  intros [_ H]. specialize (H eq_refl). discriminate H.
Qed.

(** C9: over one tick whose [liquidityActive] is -5 the greatest
    [liquidityActive] is -5, and [maxLiquidity] is left at the float parse
    of 0, not of -5. *)
Example negative_liquidity_floor :
  greatest [ {| tickIdx := 0; liquidityActive := -5;
                price0 := "1.00000"; price1 := "1.00000" |} ] = Some (-5)%Z
  /\ maxLiquidity (apply_updates initialState (formatData Sample.drained)) = 0%float
  /\ parseFloat (BigInt_toString (-5)) = (-5)%float
  /\ maxLiquidity (apply_updates initialState (formatData Sample.drained))
     <> parseFloat (BigInt_toString (-5)).
Proof.
  repeat split.
  intros H. apply (f_equal (fun x : number => PrimFloat.ltb x 0%float)) in H.
  vm_compute in H. discriminate H.
Qed.

(** ** The further properties on the sample inputs *)

Example priceAtActiveTick_last_match_run :
  priceAtActiveTick Sample.formatted = Some (parseFloat "1.00000").
Proof.
  apply (priceAtActiveTick_last_match Sample.loaded
           [ {| tickIdx := -60; liquidityActive := 1000;
                price0 := "0.99402"; price1 := "1.00602" |} ]
           [ {| tickIdx := 60; liquidityActive := 1800;
                price0 := "1.00602"; price1 := "0.99402" |} ]
           {| tickIdx := 0; liquidityActive := 2500;
              price0 := "1.00000"; price1 := "1.00000" |}
           initialState).
  - reflexivity.
  - reflexivity.
  - intros u [<-|[]]. discriminate.
Defined.

Example priceAtActiveTick_kept_without_match_run :
  priceAtActiveTick (apply_updates Sample.formatted (formatData Cases.unmatched))
  = priceAtActiveTick Sample.formatted
  /\ priceAtActiveTick (apply_updates initialState (formatData Cases.inactive))
     = None.
Proof.
  split.
  - apply (priceAtActiveTick_kept_without_match Cases.unmatched
             (ticks := Sample.ticks) Sample.formatted).
    + reflexivity.
    + discriminate.
    + intros t [<-|[<-|[<-|[]]]]; discriminate.
  - apply (priceAtActiveTick_kept_without_match Cases.inactive
             (ticks := Sample.ticks) initialState).
    + reflexivity.
    + discriminate.
    + intros t _. discriminate.
Defined.

Example fresh_ticks_override_clearing_run :
  clearEffect Sample.cleared Sample.formatted = [SetFormattedData []]
  /\ formattedData (commit Cases.all_changed Sample.cleared Sample.loaded Sample.formatted)
     = formattedData Sample.formatted.
Proof.
  split; [reflexivity|].
  apply (fresh_ticks_override_clearing Cases.all_changed Sample.cleared
           Sample.loaded (ticks := Sample.ticks) Sample.formatted).
  - reflexivity.
  - reflexivity.
  - reflexivity.
  - discriminate.
Defined.

Example reachable_invariant_run :
  maxLiquidity (commit Cases.all_changed Sample.form Sample.loaded initialState)
  = 0%float
  \/ exists m : Z,
       (0 <= m)%Z
       /\ maxLiquidity (commit Cases.all_changed Sample.form Sample.loaded initialState)
          = parseFloat (BigInt_toString m).
Proof.
  apply (reachable_invariant
           (reach_commit Cases.all_changed Sample.form Sample.loaded reach_mount)).
Defined.

Example formatted_chart_bars_run :
  exists c : VictoryChart,
    DensityChart Sample.form Sample.loaded Sample.formatted = Panel false (Chart c)
    /\ allowDrag (containerComponent c) = true
    /\ List.length (bar_data c) = 3.
Proof.
  destruct (formatted_chart_bars Sample.form Sample.loaded (ticks := Sample.ticks)
              initialState)
    as (c & H1 & H2 & _ & _ & H3 & _).
  - reflexivity.
  - discriminate.
  - reflexivity.
  - exists c. exact (conj H1 (conj H2 H3)).
Defined.

Example at_most_one_current_run :
  exists series : list ChartEntry,
    formattedData Sample.formatted = Some series
    /\ List.length (filter isCurrent series) <= 1.
Proof.
  destruct (at_most_one_current Sample.loaded (ticks := Sample.ticks) initialState)
    as (series & H1 & H2 & _).
  - reflexivity.
  - discriminate.
  - repeat constructor; cbn; intuition discriminate.
  - exists series. exact (conj H1 H2).
Defined.

(** A fee tier of 0 counts as cleared; a form with a range has a brush
    domain, inverted because the native currency wraps to an address above
    the token's. *)
Example edge_runs :
  clearEffect Cases.zero_fee Sample.formatted = [SetFormattedData []]
  /\ isSorted Cases.ranged = false
  /\ brush_domain Cases.ranged = Some (0.5, 4)%float
  /\ formatEffect Cases.no_ticks = [].
Proof. repeat split. Qed.
